(** * ReactTemplate: validators, API client and auth context

    A shallow embedding of the library code of the template
    ([src/lib/validators.ts], [src/lib/api.ts], [src/contexts/AuthContext.tsx])
    and the properties its specification states about it.

    JavaScript strings are sequences of UTF-16 code units; they are modelled as
    [list N].  Promises are modelled by the way they settle, component state by
    explicit state passing. *)

From Stdlib Require Import NArith ZArith List Ascii String Bool Lia.
From stdpp Require Import gmap strings list.

Local Open Scope N_scope.

(** ** The platform: strings, [String.prototype.trim], regular expressions *)

Module JS.

(** A string literal of the source, as its code units (ASCII literals only). *)
Definition js (s : string) : list N :=
  List.map N_of_ascii (list_ascii_of_string s).

(** ECMAScript [WhiteSpace]: TAB, VT, FF, ZWNBSP and the code points of
    category Zs. *)
Definition WhiteSpace : list N :=
  [ 0x0009; 0x000B; 0x000C; 0xFEFF;
    0x0020; 0x00A0; 0x1680;
    0x2000; 0x2001; 0x2002; 0x2003; 0x2004; 0x2005;
    0x2006; 0x2007; 0x2008; 0x2009; 0x200A;
    0x202F; 0x205F; 0x3000 ].

(** ECMAScript [LineTerminator]: LF, CR, LS, PS. *)
Definition LineTerminator : list N := [ 0x000A; 0x000D; 0x2028; 0x2029 ].

(** The code units that [trim] strips and that the class escape [\s] matches:
    both are defined as [WhiteSpace] together with [LineTerminator]. *)
Definition isWhiteSpace (c : N) : bool :=
  existsb (N.eqb c) (WhiteSpace ++ LineTerminator).

(** [String.prototype.trimStart], [trimEnd] and [trim]. *)
Fixpoint trimStart (s : list N) : list N :=
  match s with
  | c :: rest => if isWhiteSpace c then trimStart rest else s
  | [] => []
  end.

Definition trimEnd (s : list N) : list N := rev (trimStart (rev s)).

Definition trim (s : list N) : list N := trimEnd (trimStart s).

(** The fragment of the regular expression grammar the source uses:
    the assertions [^] and [$], pattern characters (escaped or not),
    character classes over characters and [\s], and the quantifier [+]
    on a one-character atom. *)
Inductive ClassAtom :=
| ClassChar (c : N)
| ClassEscape_s.

Inductive Atom :=
| PatternChar (c : N)
| CharClass (negated : bool) (items : list ClassAtom).

Inductive Term :=
| AssertStart
| AssertEnd
| One (a : Atom)
| OneOrMore (a : Atom).

Definition classAtomMatches (i : ClassAtom) (c : N) : bool :=
  match i with
  | ClassChar d => N.eqb c d
  | ClassEscape_s => isWhiteSpace c
  end.

Definition atomMatches (a : Atom) (c : N) : bool :=
  match a with
  | PatternChar d => N.eqb c d
  | CharClass negated items =>
      xorb negated (existsb (fun i => classAtomMatches i c) items)
  end.

(** The backtracking matcher.  [plusLoop a k rest] matches [a] once, then
    tries greedily to match it again and otherwise hands the remaining input to
    the continuation [k]. *)
Fixpoint plusLoop (a : Atom) (k : list N -> bool) (rest : list N) : bool :=
  match rest with
  | c :: rest' => atomMatches a c && (plusLoop a k rest' || k rest')
  | [] => false
  end.

(** [matchTerms ts atStart rest]: the terms [ts] match a prefix of [rest];
    [atStart] tells whether the current position is index 0 of the input. *)
Fixpoint matchTerms (ts : list Term) (atStart : bool) (rest : list N) : bool :=
  match ts with
  | [] => true
  | AssertStart :: ts' => atStart && matchTerms ts' atStart rest
  | AssertEnd :: ts' =>
      match rest with
      | [] => matchTerms ts' atStart rest
      | _ :: _ => false
      end
  | One a :: ts' =>
      match rest with
      | c :: rest' => atomMatches a c && matchTerms ts' false rest'
      | [] => false
      end
  | OneOrMore a :: ts' => plusLoop a (matchTerms ts' false) rest
  end.

(** [RegExp.prototype.test] of a pattern without flags: a match is searched
    from every start index, 0 first. *)
Fixpoint searchFrom (ts : list Term) (atStart : bool) (rest : list N) : bool :=
  matchTerms ts atStart rest
  || match rest with
     | _ :: rest' => searchFrom ts false rest'
     | [] => false
     end.

Definition RegExp_test (pattern : list Term) (s : list N) : bool :=
  searchFrom pattern true s.

End JS.

(** ** The platform: [JSON.parse] *)

Module JSON.
Import JS.

(** A parsed JSON text.  A number keeps its literal; an object keeps its
    members in the order of their first occurrence. *)
#[local] Unset Elimination Schemes.
Inductive value :=
| JNull
| JBool (b : bool)
| JNumber (literal : list N)
| JString (s : list N)
| JArray (items : list value)
| JObject (members : list (list N * value)).
#[local] Set Elimination Schemes.

Definition isDigit (c : N) : bool := (0x30 <=? c) && (c <=? 0x39).

Definition hexDigit (c : N) : option N :=
  if isDigit c then Some (c - 0x30)
  else if (0x61 <=? c) && (c <=? 0x66) then Some (c - 0x61 + 10)
  else if (0x41 <=? c) && (c <=? 0x46) then Some (c - 0x41 + 10)
  else None.

(** JSON white space: space, TAB, LF, CR. *)
Fixpoint skipWhite (s : list N) : list N :=
  match s with
  | c :: rest =>
      if (c =? 0x20) || (c =? 0x09) || (c =? 0x0A) || (c =? 0x0D)
      then skipWhite rest else s
  | [] => []
  end.

Fixpoint stripPrefix (p s : list N) : option (list N) :=
  match p, s with
  | [], _ => Some s
  | a :: p', b :: s' => if a =? b then stripPrefix p' s' else None
  | _ :: _, [] => None
  end.

Fixpoint takeDigits (s : list N) : list N * list N :=
  match s with
  | c :: rest =>
      if isDigit c then let '(ds, r) := takeDigits rest in (c :: ds, r)
      else ([], s)
  | [] => ([], [])
  end.

(** The characters of a string after its opening quote, up to the closing
    one; [acc] holds the decoded code units in reverse. *)
Fixpoint parseChars (s acc : list N) : option (list N * list N) :=
  match s with
  | [] => None
  | c :: rest =>
      if c =? 0x22 then Some (rev acc, rest)
      else if c =? 0x5C then
        match rest with
        | e :: rest' =>
            if e =? 0x75 then
              match rest' with
              | h1 :: h2 :: h3 :: h4 :: rest'' =>
                  match hexDigit h1, hexDigit h2, hexDigit h3, hexDigit h4 with
                  | Some a, Some b, Some c', Some d =>
                      parseChars rest'' (((a * 16 + b) * 16 + c') * 16 + d :: acc)
                  | _, _, _, _ => None
                  end
              | _ => None
              end
            else if (e =? 0x22) || (e =? 0x5C) || (e =? 0x2F) then parseChars rest' (e :: acc)
            else if e =? 0x62 then parseChars rest' (0x08 :: acc)
            else if e =? 0x66 then parseChars rest' (0x0C :: acc)
            else if e =? 0x6E then parseChars rest' (0x0A :: acc)
            else if e =? 0x72 then parseChars rest' (0x0D :: acc)
            else if e =? 0x74 then parseChars rest' (0x09 :: acc)
            else None
        | [] => None
        end
      else if c <? 0x20 then None
      else parseChars rest (c :: acc)
  end.

(** A number literal: an optional minus sign; a zero, or a digit from 1 to 9
    followed by digits; an optional fraction (a dot and at least one digit);
    an optional exponent (e or E, an optional sign, at least one digit). *)
Definition parseNumber (s : list N) : option (list N * list N) :=
  let '(sign, s1) :=
    match s with
    | c :: r => if c =? 0x2D then ([c], r) else ([], s)
    | [] => ([], s)
    end in
  '(int, s2) ←
    match s1 with
    | c :: r =>
        if c =? 0x30 then Some ([c], r)
        else if isDigit c then Some (takeDigits s1)
        else None
    | [] => None
    end;
  '(frac, s3) ←
    match s2 with
    | c :: r =>
        if c =? 0x2E then
          let '(ds, r') := takeDigits r in
          match ds with [] => None | _ :: _ => Some (c :: ds, r') end
        else Some ([], s2)
    | [] => Some ([], s2)
    end;
  '(exp, s4) ←
    match s3 with
    | c :: r =>
        if (c =? 0x65) || (c =? 0x45) then
          let '(sg, r1) :=
            match r with
            | d :: r' => if (d =? 0x2B) || (d =? 0x2D) then ([d], r') else ([], r)
            | [] => ([], r)
            end in
          let '(ds, r2) := takeDigits r1 in
          match ds with [] => None | _ :: _ => Some (c :: sg ++ ds, r2) end
        else Some ([], s3)
    | [] => Some ([], s3)
    end;
  Some (sign ++ int ++ frac ++ exp, s4).

(** A repeated name keeps its place and takes the later value. *)
Fixpoint setMember (k : list N) (v : value) (ms : list (list N * value))
  : list (list N * value) :=
  match ms with
  | [] => [(k, v)]
  | (k', v') :: ms' =>
      if decide (k = k') then (k, v) :: ms' else (k', v') :: setMember k v ms'
  end.

(** Recursive descent; [fuel] bounds the number of values and separators
    read, which the length of the text bounds in turn. *)
Fixpoint parseValue (fuel : nat) (s : list N) : option (value * list N) :=
  match fuel with
  | O => None
  | S fuel' =>
      match skipWhite s with
      | [] => None
      | c :: rest =>
          if c =? 0x22 then
            '(str, r) ← parseChars rest []; Some (JString str, r)
          else if c =? 0x5B then
            match skipWhite rest with
            | d :: r => if d =? 0x5D then Some (JArray [], r)
                        else parseElements fuel' rest []
            | [] => None
            end
          else if c =? 0x7B then
            match skipWhite rest with
            | d :: r => if d =? 0x7D then Some (JObject [], r)
                        else parseMembers fuel' rest []
            | [] => None
            end
          else if (c =? 0x2D) || isDigit c then
            '(lit, r) ← parseNumber (c :: rest); Some (JNumber lit, r)
          else
            match stripPrefix (js "true") (c :: rest),
                  stripPrefix (js "false") (c :: rest),
                  stripPrefix (js "null") (c :: rest) with
            | Some r, _, _ => Some (JBool true, r)
            | _, Some r, _ => Some (JBool false, r)
            | _, _, Some r => Some (JNull, r)
            | None, None, None => None
            end
      end
  end
with parseElements (fuel : nat) (s : list N) (acc : list value)
  : option (value * list N) :=
  match fuel with
  | O => None
  | S fuel' =>
      '(v, r) ← parseValue fuel' s;
      match skipWhite r with
      | c :: r' =>
          if c =? 0x2C then parseElements fuel' r' (v :: acc)
          else if c =? 0x5D then Some (JArray (rev (v :: acc)), r')
          else None
      | [] => None
      end
  end
with parseMembers (fuel : nat) (s : list N) (acc : list (list N * value))
  : option (value * list N) :=
  match fuel with
  | O => None
  | S fuel' =>
      match skipWhite s with
      | q :: r0 =>
          if q =? 0x22 then
            '(k, r1) ← parseChars r0 [];
            match skipWhite r1 with
            | colon :: r2 =>
                if colon =? 0x3A then
                  '(v, r3) ← parseValue fuel' r2;
                  match skipWhite r3 with
                  | c :: r4 =>
                      if c =? 0x2C then parseMembers fuel' r4 (setMember k v acc)
                      else if c =? 0x7D then Some (JObject (setMember k v acc), r4)
                      else None
                  | [] => None
                  end
                else None
            | [] => None
            end
          else None
      | [] => None
      end
  end.

(** [JSON.parse(text)]: one value, white space around it, nothing else.
    [None] stands for the [SyntaxError] it throws. *)
Definition parse (text : list N) : option value :=
  '(v, r) ← parseValue (S (length text)) text;
  match skipWhite r with
  | [] => Some v
  | _ :: _ => None
  end.

End JSON.

(** ** [src/lib/validators.ts] *)

Module Validators.
Import JS.

(** [value.trim().length > 0] *)
Definition isNonEmpty (value : list N) : bool :=
  (0 <? length (trim value))%nat.

(** The code units of [@] and [.]. *)
Definition AT : N := 0x40.
Definition DOT : N := 0x2E.

(** [[^\s@]] *)
Definition notSpaceNorAt : Atom := CharClass true [ClassEscape_s; ClassChar AT].

(** [/^[^\s@]+@[^\s@]+\.[^\s@]+$/] *)
Definition emailPattern : list Term :=
  [ AssertStart;
    OneOrMore notSpaceNorAt; One (PatternChar AT);
    OneOrMore notSpaceNorAt; One (PatternChar DOT);
    OneOrMore notSpaceNorAt;
    AssertEnd ].

Definition isValidEmail (value : list N) : bool :=
  RegExp_test emailPattern value.

End Validators.

(** ** [src/lib/api.ts] *)

Module Api.
Import JS.

(** [class ApiError extends Error]: the constructor passes [message] to
    [Error], stores [status] and sets [name]. *)
Module ApiError.
Record t := { name : list N; status : Z; message : list N }.
Definition new (status : Z) (message : list N) : t :=
  {| name := js "ApiError"; status := status; message := message |}.
End ApiError.

(** What a rejected promise carries: the client's own [ApiError], or an
    error raised by the platform ([fetch]'s [TypeError], the [SyntaxError]
    of [json()]), of which only the name is kept. *)
Inductive Thrown :=
| ThrownApiError (e : ApiError.t)
| ThrownByPlatform (errorName : list N).

(** A promise, by the way it settles. *)
Inductive Promise (A : Type) :=
| Resolved (v : A)
| Rejected (reason : Thrown).
Arguments Resolved {A} v.
Arguments Rejected {A} reason.

(** [await p] followed by the rest of an [async] function body. *)
#[export] Instance Promise_await : MBind Promise :=
  fun A B k p =>
    match p with
    | Resolved v => k v
    | Rejected reason => Rejected reason
    end.

(** The members of a [Response] the client reads. *)
Module Response.
Record t := {
  ok : bool;
  status : Z;
  text : Promise (list N);
  json : Promise JSON.value
}.
End Response.

(** An own property of an options object: absent, or present with a value
    that may be [undefined]. *)
Inductive Field (A : Type) :=
| Absent
| Own (v : option A).
Arguments Absent {A}.
Arguments Own {A} v.

(** The recognised options of [RequestInit].  [headers] is a plain record of
    header names and values, the form of [HeadersInit] that an object spread
    copies. *)
Record RequestInit := {
  method : Field (list N);
  headers : Field (gmap (list N) (list N));
  body : Field (list N)
}.

(** [{ ...later }] written after a property in an object literal: an own
    property of [later] replaces the one written before it. *)
Definition spreadOver {A : Type} (later earlier : Field A) : Field A :=
  match later with
  | Own v => Own v
  | Absent => earlier
  end.

(** [options?.headers] *)
Definition optionalHeaders (options : option RequestInit)
  : option (gmap (list N) (list N)) :=
  match options with
  | Some o =>
      match headers o with
      | Own v => v
      | Absent => None
      end
  | None => None
  end.

(** [{ "Content-Type": "application/json", ...h }]: spreading [undefined]
    adds nothing; an entry of [h] replaces the default of the same name. *)
Definition defaultHeaders : gmap (list N) (list N) :=
  {[ js "Content-Type" := js "application/json" ]}.

Definition mergedHeaders (h : option (gmap (list N) (list N)))
  : gmap (list N) (list N) :=
  match h with
  | Some entries => entries ∪ defaultHeaders
  | None => defaultHeaders
  end.

(** The second argument of [fetch]:
    [{ headers: { "Content-Type": "application/json", ...options?.headers },
       ...options }]. *)
Definition requestInit (options : option RequestInit) : RequestInit :=
  let merged := Own (Some (mergedHeaders (optionalHeaders options))) in
  match options with
  | Some o =>
      {| method := spreadOver (method o) Absent;
         headers := spreadOver (headers o) merged;
         body := spreadOver (body o) Absent |}
  | None => {| method := Absent; headers := merged; body := Absent |}
  end.

(** The header map [fetch] builds from its second argument: the entries of
    [headers] when it has a value, none otherwise. *)
Definition sentHeaders (init : RequestInit) : gmap (list N) (list N) :=
  match headers init with
  | Own (Some h) => h
  | Own None | Absent => ∅
  end.

Section Client.

(** [API_BASE_URL] comes from [./constants], the transport is the
    platform's [fetch]. *)
Variable API_BASE_URL : list N.
Variable fetch : list N -> RequestInit -> Promise Response.t.

Definition apiClient (endpoint : list N) (options : option RequestInit)
  : Promise JSON.value :=
  response ← fetch (API_BASE_URL ++ endpoint) (requestInit options);
  if negb (Response.ok response) then
    message ← Response.text response;
    Rejected (ThrownApiError (ApiError.new (Response.status response) message))
  else
    Response.json response.

End Client.

(** A [Response] as the Fetch standard builds it from a status and a body
    text: [ok] holds for the statuses 200 to 299, [text()] gives the body and
    [json()] parses it. *)
Definition responseOf (status : Z) (bodyText : list N) : Response.t :=
  {| Response.ok := ((200 <=? status) && (status <=? 299))%Z;
     Response.status := status;
     Response.text := Resolved bodyText;
     Response.json :=
       match JSON.parse bodyText with
       | Some v => Resolved v
       | None => Rejected (ThrownByPlatform (js "SyntaxError"))
       end |}.

(** A mocked transport: every request is answered with [r]. *)
Definition mockedFetch (r : Response.t)
  : list N -> RequestInit -> Promise Response.t :=
  fun _ _ => Resolved r.

(** A mocked server that accepts JSON only: it answers 415 to a request
    that does not carry [Content-Type: application/json]. *)
Definition jsonOnlyFetch : list N -> RequestInit -> Promise Response.t :=
  fun _ init =>
    if decide (sentHeaders init !! js "Content-Type" = Some (js "application/json"))
    then Resolved (responseOf 200 (js "{}"))
    else Resolved (responseOf 415 (js "Unsupported Media Type")).

(** A base URL for the examples. *)
Definition exampleBaseUrl : list N := js "https://api.example.com".

(** A string literal of a JSON text, between its quotes. *)
Definition quoted (s : list N) : list N := [0x22] ++ s ++ [0x22].

End Api.

(** ** [src/contexts/AuthContext.tsx] *)

Module AuthContext.
Import JS.

Record User := { id : list N; email : list N; name : list N }.

(** The cell of [useState<User | null>]: [None] is [null]. *)
Definition initialUser : option User := None.

(** [setUser(v)]: the setter is called with a value, never with an updater
    function, so the next state does not depend on the current one. *)
Definition setUser (v : option User) : option User -> option User :=
  fun _ => v.

(** [AuthContextValue]; the two mutators are state transformers on the
    provider's cell. *)
Record AuthContextValue := {
  user : option User;
  login : User -> option User -> option User;
  logout : option User -> option User
}.

(** One render of [AuthProvider] with the cell holding [state]: the value it
    hands to [AuthContext.Provider]. *)
Definition AuthProvider (state : option User) : AuthContextValue :=
  {| user := state;
     login := fun u => setUser (Some u);
     logout := setUser None |}.

(** The two states of the spec. *)
Definition Anonymous : option User := None.
Definition Authenticated (U : User) : option User := Some U.

(** A consumer calls a mutator of the value of the current render; the
    provider renders again with the new state. *)
Inductive Call :=
| CallLogin (u : User)
| CallLogout.

Definition step (state : option User) (c : Call) : option User :=
  let context := AuthProvider state in
  match c with
  | CallLogin u => login context u state
  | CallLogout => logout context state
  end.

Definition run (calls : list Call) (state : option User) : option User :=
  fold_left step calls state.

(** The component tree above a consumer, innermost first: an [AuthProvider]
    with the state of its cell, or any other component. *)
Inductive Ancestor :=
| AuthProviderAbove (state : option User)
| OtherComponent.

(** [useContext(AuthContext)]: the value of the nearest provider above, else
    the default given to [createContext], which is [null]. *)
Fixpoint useContext (ancestors : list Ancestor) : option AuthContextValue :=
  match ancestors with
  | AuthProviderAbove state :: _ => Some (AuthProvider state)
  | OtherComponent :: above => useContext above
  | [] => None
  end.

(** [new Error(message)], thrown. *)
Inductive Error := MkError (message : list N).

Definition useAuth (ancestors : list Ancestor) : Error + AuthContextValue :=
  match useContext ancestors with
  | None => inl (MkError (js "useAuth must be used within an AuthProvider"))
  | Some context => inr context
  end.

(** The consumer is nested under an [AuthProvider]. *)
Definition underProvider (ancestors : list Ancestor) : bool :=
  existsb (fun a => match a with AuthProviderAbove _ => true | OtherComponent => false end)
    ancestors.

End AuthContext.

(** ** [src/components/ui/Button.tsx] *)

Module Button.
Import JS.

(** [variant?: "primary" | "secondary" | "danger"] and
    [size?: "sm" | "md" | "lg"]. *)
Inductive Variant := primary | secondary | danger.
Inductive Size := sm | md | lg.

(** [variant === "primary"] and the like. *)
Definition isVariant (a b : Variant) : bool :=
  match a, b with
  | primary, primary | secondary, secondary | danger, danger => true
  | _, _ => false
  end.

Definition isSize (a b : Size) : bool :=
  match a, b with
  | sm, sm | md, md | lg, lg => true
  | _, _ => false
  end.

(** An argument of [cn]: a class string, [false], or [undefined]. *)
Inductive ClassValue :=
| ClassString (s : list N)
| ClassFalse
| ClassUndefined.

(** [b && "classes"] for a boolean [b]. *)
Definition andClass (b : bool) (s : list N) : ClassValue :=
  if b then ClassString s else ClassFalse.

(** What the button holds, and the values of the attributes passed on. *)
Inductive ReactNode :=
| TextNode (s : list N)
| OtherNode (key : N).

Inductive AttrValue :=
| AttrString (s : list N)
| AttrBool (b : bool)
| AttrHandler (key : N).

(** The props of a call.  The six properties that the parameter pattern
    names are read through the typed fields, [None] for [undefined];
    [passed] is the props object as the caller wrote it, from which the rest
    pattern [...props] takes what the pattern does not name. *)
Record ButtonProps := {
  variant : option Variant;
  size : option Size;
  isLoading : option bool;
  className : option (list N);
  children : ReactNode;
  disabled : option bool;
  passed : gmap (list N) AttrValue
}.

Definition namedKeys : list (list N) :=
  [ js "variant"; js "size"; js "isLoading"; js "className"; js "children";
    js "disabled" ].

(** [...props] in the parameter pattern. *)
Definition restProps (p : ButtonProps) : gmap (list N) AttrValue :=
  foldr delete (passed p) namedKeys.

(** [disabled || isLoading], with [isLoading] already defaulted. *)
Definition orLoading (disabled : option bool) (isLoading : bool) : bool :=
  match disabled with
  | Some true => true
  | Some false | None => isLoading
  end.

(** The arguments of [cn] before the caller's [className]. *)
Definition computedClasses (p : ButtonProps) : list ClassValue :=
  let variant := default primary (variant p) in
  let size := default md (size p) in
  let isLoading := default false (isLoading p) in
  [ ClassString
      (js "inline-flex items-center justify-center rounded-md font-medium transition-colors");
    ClassString
      (js "focus-visible:outline-none focus-visible:ring-2 focus-visible:ring-offset-2");
    andClass (isVariant variant primary) (js "bg-blue-600 text-white hover:bg-blue-700");
    andClass (isVariant variant secondary) (js "bg-gray-100 text-gray-900 hover:bg-gray-200");
    andClass (isVariant variant danger) (js "bg-red-600 text-white hover:bg-red-700");
    andClass (isSize size sm) (js "px-3 py-1.5 text-sm");
    andClass (isSize size md) (js "px-4 py-2 text-sm");
    andClass (isSize size lg) (js "px-6 py-3 text-base");
    andClass (orLoading (disabled p) isLoading) (js "cursor-not-allowed opacity-50") ].

(** The rendered [<button>]: its attributes and what it holds. *)
Record ButtonElement := {
  attributes : gmap (list N) AttrValue;
  content : ReactNode
}.

Section Render.

(** [cn] comes from [../../lib/utils]. *)
Variable cn : list ClassValue -> list N.

(** [<button className={cn(...)} disabled={disabled || isLoading} {...props}>]:
    an attribute of the spread would replace one written before it. *)
Definition Button (p : ButtonProps) : ButtonElement :=
  let isLoading := default false (isLoading p) in
  let classNameArgument :=
    match className p with
    | Some c => ClassString c
    | None => ClassUndefined
    end in
  {| attributes :=
       restProps p
       ∪ <[ js "disabled" := AttrBool (orLoading (disabled p) isLoading) ]>
           {[ js "className" :=
                AttrString (cn (computedClasses p ++ [classNameArgument])) ]};
     content :=
       if isLoading then TextNode (js "Loading" ++ [0x2026]) else children p |}.

End Render.

(** A [cn] for the examples: the class strings among the arguments, joined
    by spaces. *)
Fixpoint joinClasses (cs : list ClassValue) : list N :=
  match cs with
  | [] => []
  | ClassString s :: rest =>
      match joinClasses rest with
      | [] => s
      | (_ :: _) as more => s ++ [0x20] ++ more
      end
  | (ClassFalse | ClassUndefined) :: rest => joinClasses rest
  end.

#[export] Instance ClassValue_eq_dec : EqDecision ClassValue.
Proof. solve_decision. Defined.

(** Whether the class string [s] is among the arguments [cs]. *)
Definition hasClass (s : list N) (cs : list ClassValue) : bool :=
  existsb (fun c => match c with
                    | ClassString t => bool_decide (s = t)
                    | ClassFalse | ClassUndefined => false
                    end) cs.

End Button.

(** ** [src/test/test-utils.tsx] *)

Module TestUtils.
Import AuthContext.

(** The components [AllProviders] puts around its children, innermost
    first: [MemoryRouter] inside [QueryClientProvider]. *)
Definition AllProviders : list Ancestor := [OtherComponent; OtherComponent].

(** [render(ui, { wrapper: AllProviders, ...options })], where the type of
    [options] leaves [wrapper] out: [ui] is rendered inside [AllProviders].
    A consumer with the ancestors [within] inside [ui] has these ancestors
    in the rendered tree. *)
Definition customRender (within : list Ancestor) : list Ancestor :=
  within ++ AllProviders.

End TestUtils.

(** ** The spec's words *)

Module Shapes.
Import JS Validators.

(** [t] is [s] with its leading and trailing white space removed. *)
Definition Trimmed (s t : list N) : Prop :=
  exists l r,
    s = l ++ t ++ r
    /\ forallb isWhiteSpace l = true
    /\ forallb isWhiteSpace r = true
    /\ (forall c, head t = Some c -> isWhiteSpace c = false)
    /\ (forall c, last t = Some c -> isWhiteSpace c = false).

(** [s] contains no white space character. *)
Definition noWhiteSpace (s : list N) : bool :=
  forallb (fun c => negb (isWhiteSpace c)) s.

(** [s] consists of white space characters only (the empty string does). *)
Definition onlyWhiteSpace (s : list N) : bool := forallb isWhiteSpace s.

(** [s.includes(c)] for a single code unit. *)
Definition contains (c : N) (s : list N) : bool := existsb (N.eqb c) s.

(** A part of an address as the pattern reads it: not empty, no white space,
    no [@]. *)
Definition plainPart (p : list N) : Prop :=
  p <> [] /\ noWhiteSpace p = true /\ contains AT p = false.

(** The shape [local@domain.tld]. *)
Definition EmailShape (s : list N) : Prop :=
  exists l d t,
    s = l ++ [AT] ++ d ++ [DOT] ++ t /\ plainPart l /\ plainPart d /\ plainPart t.

End Shapes.

(** ** Further readings of results *)

Module Readings.
Import JS Api.

(** The number of occurrences of the code unit [c] in [s]. *)
Definition occurrences (c : N) (s : list N) : nat :=
  length (List.filter (N.eqb c) s).

(** The promise rejects with an [ApiError]. *)
Definition rejectsWithApiError {A : Type} (p : Promise A) : bool :=
  match p with
  | Rejected (ThrownApiError _) => true
  | Rejected (ThrownByPlatform _) | Resolved _ => false
  end.


End Readings.

(** * Properties *)

(** ** The definitions on sample inputs *)

Section Samples.
Import JS JSON Validators Api AuthContext.

Example trim_samples :
  trim (js "  a b  ") = js "a b"
  /\ trim [0xA0; 0x61; 0x2028; 0xFEFF] = [0x61]
  /\ trim (js "   ") = []
  /\ trim (js "ab") = js "ab".
Proof. repeat split. Qed.

Example isNonEmpty_samples :
  List.map isNonEmpty [js ""; js " "; js "a"; js " a "; [0x09; 0x0A; 0x0D]]
  = [false; false; true; true; false].
Proof. reflexivity. Qed.

Example isValidEmail_samples :
  List.map isValidEmail
    [js "a@b.com"; js "a@b.c.d"; js "a.b@c.d"; js "a@b"; js "a.b"; js "@b.c";
     js "a@.c"; js "a@b."; js "a @b.c"; js "a@b@c.d"; js ""]
  = [true; true; true; false; false; false; false; false; false; false; false].
Proof. reflexivity. Qed.

Example JSON_parse_samples :
  parse (js "{" ++ quoted (js "id") ++ js ":" ++ quoted (js "1") ++ js "}")
    = Some (JObject [(js "id", JString (js "1"))])
  /\ parse (js " [1, -2.5e+3, true, null, [], {}] ")
     = Some (JArray [JNumber (js "1"); JNumber (js "-2.5e+3"); JBool true; JNull;
                     JArray []; JObject []])
  /\ parse (quoted (js "a\u0041\n")) = Some (JString [0x61; 0x41; 0x0A])
  /\ parse (js "[1,]") = None
  /\ parse (js "01") = None
  /\ parse (js "{}x") = None
  /\ parse (js "") = None
  /\ parse (js "not found") = None.
Proof. repeat split. Qed.

Example requestInit_samples :
  sentHeaders (requestInit None) = {[ js "Content-Type" := js "application/json" ]}
  /\ sentHeaders
       (requestInit
          (Some {| method := Own (Some (js "POST")); headers := Absent;
                   body := Own (Some (js "{}")) |}))
     = {[ js "Content-Type" := js "application/json" ]}
  /\ method
       (requestInit
          (Some {| method := Own (Some (js "POST")); headers := Absent;
                   body := Own (Some (js "{}")) |}))
     = Own (Some (js "POST"))
  /\ sentHeaders
       (requestInit
          (Some {| method := Absent; headers := Own None; body := Absent |}))
     = ∅.
Proof. repeat split. Qed.

Example useAuth_samples :
  useAuth [] = inl (MkError (js "useAuth must be used within an AuthProvider"))
  /\ useAuth [OtherComponent; AuthProviderAbove None]
     = inr (AuthProvider None).
Proof. repeat split. Qed.

End Samples.

(** ** Trimming *)

Module TrimFacts.
Import JS Shapes.

Lemma trimStart_split (s : list N) :
  exists l, s = l ++ trimStart s /\ forallb isWhiteSpace l = true.
Proof.
  induction s as [|c s [l [Hs Hl]]]; simpl.
  - exists []. auto.
  - destruct (isWhiteSpace c) eqn:Hc.
    + exists (c :: l). simpl. rewrite Hc, Hl. split; [f_equal; exact Hs | reflexivity].
    + exists []. auto.
Qed.

Lemma trimStart_head (s : list N) (c : N) :
  head (trimStart s) = Some c -> isWhiteSpace c = false.
Proof.
  induction s as [|d s IH]; simpl; [discriminate|].
  destruct (isWhiteSpace d) eqn:Hd; [exact IH|].
  simpl. intros [= <-]. exact Hd.
Qed.

Lemma trimStart_white (l x : list N) :
  forallb isWhiteSpace l = true -> trimStart (l ++ x) = trimStart x.
Proof.
  induction l as [|c l IH]; simpl; [reflexivity|].
  intros [Hc Hl]%andb_true_iff. rewrite Hc. auto.
Qed.

Lemma trimStart_fixed (x : list N) :
  (forall c, head x = Some c -> isWhiteSpace c = false) -> trimStart x = x.
Proof.
  destruct x as [|c x]; simpl; [reflexivity|].
  intros H. rewrite (H c eq_refl). reflexivity.
Qed.

Lemma trimStart_all_white (s : list N) :
  forallb isWhiteSpace s = true -> trimStart s = [].
Proof.
  intros H. rewrite <- (app_nil_r s). rewrite trimStart_white; auto.
Qed.

Lemma head_rev_last (x : list N) : head (rev x) = last x.
Proof.
  induction x as [|c x IH] using rev_ind; [reflexivity|].
  rewrite rev_app_distr, last_snoc. reflexivity.
Qed.

Lemma last_rev_head (x : list N) : last (rev x) = head x.
Proof. rewrite <- head_rev_last, rev_involutive. reflexivity. Qed.

Lemma forallb_rev (f : N -> bool) (x : list N) :
  forallb f (rev x) = forallb f x.
Proof.
  induction x as [|c x IH]; simpl; [reflexivity|].
  rewrite forallb_app, IH. simpl. rewrite andb_true_r. apply andb_comm.
Qed.

Lemma trimEnd_split (s : list N) :
  exists r, s = trimEnd s ++ r /\ forallb isWhiteSpace r = true.
Proof.
  destruct (trimStart_split (rev s)) as [l [Hs Hl]].
  exists (rev l). split.
  - unfold trimEnd. rewrite <- rev_app_distr, <- Hs, rev_involutive. reflexivity.
  - rewrite forallb_rev. exact Hl.
Qed.

Lemma trimEnd_last (s : list N) (c : N) :
  last (trimEnd s) = Some c -> isWhiteSpace c = false.
Proof. unfold trimEnd. rewrite last_rev_head. apply trimStart_head. Qed.

(** [trimEnd] leaves the first code unit of a string that does not start
    with white space where it is. *)
Lemma trimEnd_head (s : list N) (c : N) :
  (forall d, head s = Some d -> isWhiteSpace d = false) ->
  head (trimEnd s) = Some c -> isWhiteSpace c = false.
Proof.
  intros Hs Hc. destruct (trimEnd_split s) as [r [Heq _]].
  apply Hs. rewrite Heq. destruct (trimEnd s); [discriminate | exact Hc].
Qed.

(** The executable [trim] meets the spec's description. *)
Lemma trim_Trimmed (s : list N) : Trimmed s (trim s).
Proof.
  destruct (trimStart_split s) as [l [Hs Hl]].
  destruct (trimEnd_split (trimStart s)) as [r [Ht Hr]].
  exists l, r. unfold trim. repeat split; auto.
  - rewrite <- Ht. exact Hs.
  - intros c. apply trimEnd_head. intros d. apply trimStart_head.
  - intros c. apply trimEnd_last.
Qed.

(** The description determines the result. *)
Lemma Trimmed_unique (s t : list N) : Trimmed s t -> t = trim s.
Proof.
  intros (l & r & -> & Hl & Hr & Hh & Hla). unfold trim.
  rewrite trimStart_white by exact Hl.
  destruct t as [|c t].
  - simpl. rewrite (trimStart_all_white r Hr). reflexivity.
  - rewrite trimStart_fixed.
    + unfold trimEnd. rewrite rev_app_distr.
      rewrite trimStart_white by (rewrite forallb_rev; exact Hr).
      rewrite trimStart_fixed; [apply eq_sym, rev_involutive|].
      intros d. rewrite head_rev_last. apply Hla.
    + simpl. intros d [= <-]. apply (Hh c). reflexivity.
Qed.

Lemma trim_nil_iff (s : list N) :
  trim s = [] <-> forallb isWhiteSpace s = true.
Proof.
  split.
  - intros H. destruct (trim_Trimmed s) as (l & r & Hs & Hl & Hr & _).
    rewrite H in Hs. simpl in Hs. rewrite Hs, forallb_app, Hl, Hr. reflexivity.
  - intros H. unfold trim. rewrite (trimStart_all_white s H). reflexivity.
Qed.

End TrimFacts.


(** ** The regular expression matcher *)

Module RegExpFacts.
Import JS.

(** What [a+] followed by the continuation [k] accepts: a non-empty run of
    code units that [a] matches, then an input that [k] accepts. *)
Lemma plusLoop_spec (a : Atom) (k : list N -> bool) (rest : list N) :
  plusLoop a k rest = true <->
  exists run post,
    rest = run ++ post /\ run <> [] /\
    forallb (atomMatches a) run = true /\ k post = true.
Proof.
  induction rest as [|c rest IH]; simpl.
  - split; [discriminate|].
    intros (run & post & Heq & Hne & _). destruct run; [congruence | discriminate].
  - rewrite andb_true_iff, orb_true_iff, IH. split.
    + intros [Hc [(run & post & -> & Hne & Hrun & Hk) | Hk]].
      * exists (c :: run), post. simpl. rewrite Hc, Hrun. auto.
      * exists [c], rest. simpl. rewrite Hc. auto.
    + intros (run & post & Heq & Hne & Hrun & Hk).
      destruct run as [|d run]; [congruence|].
      simpl in Heq, Hrun. injection Heq as <- ->.
      apply andb_true_iff in Hrun as [Hc Hrun]. split; [exact Hc|].
      destruct run as [|e run]; [right; exact Hk|].
      left. exists (e :: run), post. auto.
Qed.

(** A pattern that starts with [^] matches at index 0 only. *)
Lemma searchFrom_anchored (ts : list Term) (rest : list N) :
  searchFrom (AssertStart :: ts) false rest = false.
Proof. induction rest as [|c rest IH]; simpl; [reflexivity | exact IH]. Qed.

Lemma test_anchored (ts : list Term) (s : list N) :
  RegExp_test (AssertStart :: ts) s = matchTerms ts true s.
Proof.
  unfold RegExp_test. destruct s as [|c s]; simpl.
  - apply orb_false_r.
  - rewrite searchFrom_anchored. apply orb_false_r.
Qed.

End RegExpFacts.

(** ** The validators *)

Section ValidatorFacts.
Import JS Validators Shapes TrimFacts RegExpFacts.

Lemma notSpaceNorAt_run (p : list N) :
  forallb (atomMatches notSpaceNorAt) p = true <->
  noWhiteSpace p = true /\ contains AT p = false.
Proof.
  unfold noWhiteSpace, contains.
  induction p as [|c p IH]; [simpl; tauto|].
  cbn [forallb existsb atomMatches notSpaceNorAt classAtomMatches].
  rewrite !andb_true_iff, orb_false_iff, IH, orb_false_r.
  rewrite (N.eqb_sym AT c).
  destruct (isWhiteSpace c), (c =? AT); simpl; intuition congruence.
Qed.

Lemma contains_app (c : N) (x y : list N) :
  contains c (x ++ y) = contains c x || contains c y.
Proof. apply existsb_app. Qed.

Lemma noWhiteSpace_app (x y : list N) :
  noWhiteSpace (x ++ y) = noWhiteSpace x && noWhiteSpace y.
Proof. apply forallb_app. Qed.

(** The exact set of strings the source's pattern accepts. *)
Lemma isValidEmail_iff (s : list N) :
  isValidEmail s = true <-> EmailShape s.
Proof.
  unfold isValidEmail, emailPattern. rewrite test_anchored.
  cbn [matchTerms]. rewrite plusLoop_spec. split.
  - intros (l & post & -> & Hl & Hrl & Hk).
    destruct post as [|c post]; [discriminate|].
    apply andb_true_iff in Hk as [Hc Hk]. apply N.eqb_eq in Hc as ->.
    apply plusLoop_spec in Hk as (d & post' & -> & Hd & Hrd & Hk).
    destruct post' as [|c post']; [discriminate|].
    apply andb_true_iff in Hk as [Hc Hk]. apply N.eqb_eq in Hc as ->.
    apply plusLoop_spec in Hk as (t & post'' & -> & Ht & Hrt & Hk).
    destruct post'' as [|c post'']; [|discriminate].
    rewrite app_nil_r.
    apply notSpaceNorAt_run in Hrl, Hrd, Hrt.
    exists l, d, t. unfold plainPart. simpl. tauto.
  - intros (l & d & t & -> & (Hl & Hrl) & (Hd & Hrd) & (Ht & Hrt)).
    apply notSpaceNorAt_run in Hrl, Hrd, Hrt.
    exists l, ([AT] ++ d ++ [DOT] ++ t). repeat split; auto.
    simpl. apply plusLoop_spec.
    exists d, ([DOT] ++ t). repeat split; auto.
    simpl. apply plusLoop_spec.
    exists t, []. rewrite app_nil_r. repeat split; auto.
Qed.

(** A string splits in one way only at a code unit that occurs neither
    before nor after the split in one of the two readings. *)
Lemma split_at_unique (c : N) (a b l r : list N) :
  a ++ [c] ++ b = l ++ [c] ++ r ->
  contains c l = false -> contains c r = false ->
  b = r.
Proof.
  revert l. induction a as [|x a IH]; intros [|y l] Heq Hl Hr; simpl in *.
  - congruence.
  - injection Heq as <- ->. rewrite N.eqb_refl in Hl. discriminate.
  - injection Heq as -> <-.
    unfold contains in Hr. rewrite existsb_app in Hr. simpl in Hr.
    rewrite N.eqb_refl, orb_true_r in Hr. discriminate.
  - injection Heq as <- Heq. apply orb_false_iff in Hl as [_ Hl].
    exact (IH l Heq Hl Hr).
Qed.

Lemma isNonEmpty_false_iff (s : list N) :
  isNonEmpty s = false <-> forallb isWhiteSpace s = true.
Proof.
  unfold isNonEmpty. rewrite <- trim_nil_iff.
  destruct (trim s); unfold Nat.ltb; simpl; split; congruence.
Qed.

Lemma isNonEmpty_true_iff (s : list N) :
  isNonEmpty s = true <-> existsb (fun c => negb (isWhiteSpace c)) s = true.
Proof.
  destruct (isNonEmpty s) eqn:E.
  - split; [intros _|reflexivity].
    destruct (existsb _ s) eqn:X; [reflexivity|].
    assert (forallb isWhiteSpace s = true) as H.
    { apply forallb_forall. intros c Hc.
      destruct (isWhiteSpace c) eqn:W; [reflexivity|].
      assert (existsb (fun c => negb (isWhiteSpace c)) s = true) as Y
        by (apply existsb_exists; exists c; rewrite W; auto).
      congruence. }
    apply isNonEmpty_false_iff in H. congruence.
  - apply isNonEmpty_false_iff in E. split; [discriminate|].
    intros (c & Hc & W)%existsb_exists.
    rewrite forallb_forall in E. rewrite (E c Hc) in W. discriminate.
Qed.

End ValidatorFacts.

(** ** The validators: claims *)

Section ValidatorClaims.
Import JS Validators Shapes TrimFacts RegExpFacts.

(** C7.  For every string [s], [isNonEmpty s] is true exactly when the
    string that remains after trimming the leading and trailing white space
    of [s] has length greater than 0.  The trimmed string is [trim s]; it
    meets the description [Trimmed], and whatever string meets it has a
    positive length exactly when [isNonEmpty s] is true. *)
Theorem isNonEmpty_iff_trimmed_length (s : list N) :
  Trimmed s (trim s)
  /\ (isNonEmpty s = true <-> (0 < length (trim s))%nat)
  /\ (forall t, Trimmed s t -> (isNonEmpty s = true <-> (0 < length t)%nat)).
Proof.
  assert (isNonEmpty s = true <-> (0 < length (trim s))%nat) as Hiff.
  { unfold isNonEmpty. apply Nat.ltb_lt. }
  split; [apply trim_Trimmed|]. split; [exact Hiff|].
  intros t Ht. rewrite (Trimmed_unique s t Ht). exact Hiff.
Qed.

Lemma isNonEmpty_iff_trimmed_length_padded :
  Trimmed (js "  a ") (js "a")
  /\ (isNonEmpty (js "  a ") = true <-> (0 < length (js "a"))%nat).
Proof.
  assert (Trimmed (js "  a ") (js "a")) as Ht.
  { exists (js "  "), (js " "). repeat split; try reflexivity.
    - intros c [= <-]. reflexivity.
    - intros c [= <-]. reflexivity. }
  split; [exact Ht|].
  exact (proj2 (proj2 (isNonEmpty_iff_trimmed_length (js "  a "))) (js "a") Ht).
Defined.

(** C8, as stated, fails at the empty string: it contains no white space
    character, and [isNonEmpty] is false on it. *)
Lemma isNonEmpty_empty_string :
  noWhiteSpace [] = true /\ isNonEmpty [] = false.
Proof. split; reflexivity. Qed.

(** C8, amended.  For all non-empty strings [s] that contain no white space
    characters, [isNonEmpty s] is true; for every string that is empty or
    consists only of white space characters, [isNonEmpty] is false. *)
Theorem isNonEmpty_by_content :
  (forall s, s <> [] -> noWhiteSpace s = true -> isNonEmpty s = true)
  /\ (forall s, s = [] \/ onlyWhiteSpace s = true -> isNonEmpty s = false).
Proof.
  split.
  - intros [|c s] Hne Hs; [congruence|].
    apply isNonEmpty_true_iff. simpl in *.
    apply andb_true_iff in Hs as [-> _]. reflexivity.
  - intros s [-> | Hs]; [reflexivity|].
    apply isNonEmpty_false_iff. exact Hs.
Qed.

Lemma isNonEmpty_by_content_samples :
  (js "abc" <> [] /\ noWhiteSpace (js "abc") = true /\ isNonEmpty (js "abc") = true)
  /\ (onlyWhiteSpace [0x20; 0x09; 0x0A; 0xA0; 0x3000] = true
      /\ isNonEmpty [0x20; 0x09; 0x0A; 0xA0; 0x3000] = false).
Proof.
  split.
  - split; [discriminate|]. split; [reflexivity|].
    apply (proj1 isNonEmpty_by_content); [discriminate | reflexivity].
  - split; [reflexivity|].
    apply (proj2 isNonEmpty_by_content). right. reflexivity.
Defined.

(** C9, as stated, fails when a part holds a second [@]: the string
    [a@b@c.d] splits into the non-empty parts [a@b], [c] and [d], has no
    white space, and is rejected. *)
Lemma isValidEmail_second_at :
  js "a@b@c.d" = js "a@b" ++ [AT] ++ js "c" ++ [DOT] ++ js "d"
  /\ js "a@b" <> [] /\ js "c" <> [] /\ js "d" <> []
  /\ noWhiteSpace (js "a@b@c.d") = true
  /\ isValidEmail (js "a@b@c.d") = false.
Proof. repeat split; try reflexivity; discriminate. Qed.

(** C9, amended.  For all strings [local@domain.tld] whose three parts are
    non-empty and contain no white space and no [@], [isValidEmail] is
    true; for every string with no [@], and for every string with no dot
    after an [@] of it, [isValidEmail] is false. *)
Theorem isValidEmail_by_shape :
  (forall l d t,
      l <> [] -> d <> [] -> t <> [] ->
      noWhiteSpace (l ++ [AT] ++ d ++ [DOT] ++ t) = true ->
      contains AT l = false -> contains AT d = false -> contains AT t = false ->
      isValidEmail (l ++ [AT] ++ d ++ [DOT] ++ t) = true)
  /\ (forall s, contains AT s = false -> isValidEmail s = false)
  /\ (forall a b, contains DOT b = false -> isValidEmail (a ++ [AT] ++ b) = false).
Proof.
  split; [|split].
  - intros l d t Hl Hd Ht Hw Al Ad At_.
    rewrite !noWhiteSpace_app, !andb_true_iff in Hw.
    destruct Hw as (Wl & _ & Wd & _ & Wt).
    apply isValidEmail_iff. exists l, d, t. unfold plainPart. tauto.
  - intros s Hs. apply not_true_is_false. intros H.
    apply isValidEmail_iff in H as (l & d & t & -> & _).
    rewrite !contains_app in Hs. simpl in Hs.
    rewrite orb_true_r in Hs. discriminate.
  - intros a b Hb. apply not_true_is_false. intros H.
    apply isValidEmail_iff in H as (l & d & t & Heq & Hl & Hd & Ht).
    destruct Hl as (_ & _ & Al), Hd as (_ & _ & Ad), Ht as (_ & _ & At_).
    assert (b = d ++ [DOT] ++ t) as ->.
    { apply (split_at_unique AT a b l (d ++ [DOT] ++ t)); auto.
      rewrite !contains_app, Ad, At_. reflexivity. }
    rewrite !contains_app in Hb. simpl in Hb.
    rewrite orb_true_r in Hb. discriminate.
Qed.

Lemma isValidEmail_by_shape_samples :
  (js "a" <> [] /\ js "b" <> [] /\ js "com" <> []
   /\ noWhiteSpace (js "a" ++ [AT] ++ js "b" ++ [DOT] ++ js "com") = true
   /\ contains AT (js "a") = false /\ contains AT (js "b") = false
   /\ contains AT (js "com") = false
   /\ isValidEmail (js "a@b.com") = true)
  /\ (contains AT (js "a.b.com") = false /\ isValidEmail (js "a.b.com") = false)
  /\ (contains DOT (js "bcom") = false /\ isValidEmail (js "a.x@bcom") = false).
Proof.
  split; [|split].
  - repeat (split; [first [discriminate | reflexivity]|]).
    apply (proj1 isValidEmail_by_shape (js "a") (js "b") (js "com"));
      first [discriminate | reflexivity].
  - split; [reflexivity|].
    apply (proj1 (proj2 isValidEmail_by_shape) (js "a.b.com")). reflexivity.
  - split; [reflexivity|].
    apply (proj2 (proj2 isValidEmail_by_shape) (js "a.x") (js "bcom")). reflexivity.
Defined.

(** C10.  For every string [s], if [isValidEmail s] is true then
    [isNonEmpty s] is true: an accepted string holds a character that is
    not white space, so it is not empty after trimming. *)
Theorem isValidEmail_isNonEmpty (s : list N) :
  isValidEmail s = true -> isNonEmpty s = true.
Proof.
  intros (l & d & t & -> & (Hl & Wl & _) & _)%isValidEmail_iff.
  apply isNonEmpty_true_iff.
  destruct l as [|c l]; [congruence|].
  simpl in *. apply andb_true_iff in Wl as [-> _]. reflexivity.
Qed.

Lemma isValidEmail_isNonEmpty_sample :
  isValidEmail (js "a@b.com") = true /\ isNonEmpty (js "a@b.com") = true.
Proof.
  split; [reflexivity|].
  apply (isValidEmail_isNonEmpty (js "a@b.com")). reflexivity.
Defined.

End ValidatorClaims.

(** ** The API client: claims *)

Section ApiClientClaims.
Import JS Api.

Variable API_BASE_URL : list N.
Variable fetch : list N -> RequestInit -> Promise Response.t.

(** The request the client issues, and what it does with the answer. *)
Lemma apiClient_request (endpoint : list N) (options : option RequestInit) :
  apiClient API_BASE_URL fetch endpoint options =
  (fetch (API_BASE_URL ++ endpoint) (requestInit options) ≫= fun response =>
     if Response.ok response
     then Response.json response
     else Response.text response ≫= fun message =>
            Rejected (ThrownApiError
                        (ApiError.new (Response.status response) message))).
Proof.
  unfold apiClient. destruct (fetch _ _) as [response|reason]; simpl; [|reflexivity].
  destruct (Response.ok response); reflexivity.
Qed.

(** Failures of the transport and of [json()] reach the caller as they
    are. *)
Lemma apiClient_fetch_failure
    (endpoint : list N) (options : option RequestInit) (reason : Thrown) :
  fetch (API_BASE_URL ++ endpoint) (requestInit options) = Rejected reason ->
  apiClient API_BASE_URL fetch endpoint options = Rejected reason.
Proof. intros H. rewrite apiClient_request, H. reflexivity. Qed.

Lemma apiClient_settles_as_json
    (endpoint : list N) (options : option RequestInit) (response : Response.t) :
  fetch (API_BASE_URL ++ endpoint) (requestInit options) = Resolved response ->
  Response.ok response = true ->
  apiClient API_BASE_URL fetch endpoint options = Response.json response.
Proof. intros H Hok. rewrite apiClient_request, H. simpl. rewrite Hok. reflexivity. Qed.

(** C1.  When the transport answers the request of [apiClient endpoint
    options] with a response whose [ok] is false, the returned promise
    rejects with an [ApiError] whose [status] is the status code of the
    response and whose [message] is the text of its body. *)
Theorem apiClient_rejects_with_ApiError
    (endpoint : list N) (options : option RequestInit)
    (response : Response.t) (bodyText : list N) :
  fetch (API_BASE_URL ++ endpoint) (requestInit options) = Resolved response ->
  Response.ok response = false ->
  Response.text response = Resolved bodyText ->
  apiClient API_BASE_URL fetch endpoint options =
  Rejected (ThrownApiError
              {| ApiError.name := js "ApiError";
                 ApiError.status := Response.status response;
                 ApiError.message := bodyText |}).
Proof.
  intros Hfetch Hok Htext. rewrite apiClient_request, Hfetch. simpl.
  rewrite Hok, Htext. reflexivity.
Qed.

(** C3, amended.  When the transport answers the request of [apiClient
    endpoint options] with a response whose [ok] is true and whose body is
    JSON, so that [response.json()] resolves, the returned promise resolves
    with the body parsed as JSON. *)
Theorem apiClient_resolves_with_json
    (endpoint : list N) (options : option RequestInit)
    (response : Response.t) (parsed : JSON.value) :
  fetch (API_BASE_URL ++ endpoint) (requestInit options) = Resolved response ->
  Response.ok response = true ->
  Response.json response = Resolved parsed ->
  apiClient API_BASE_URL fetch endpoint options = Resolved parsed.
Proof.
  intros Hfetch Hok Hjson. rewrite apiClient_request, Hfetch. simpl.
  rewrite Hok. exact Hjson.
Qed.

End ApiClientClaims.

Section ApiClientSamples.
Import JS Api.

Lemma apiClient_404_not_found :
  (mockedFetch (responseOf 404 (js "not found")) (exampleBaseUrl ++ js "/x") (requestInit None)
     = Resolved (responseOf 404 (js "not found"))
   /\ Response.ok (responseOf 404 (js "not found")) = false
   /\ Response.text (responseOf 404 (js "not found")) = Resolved (js "not found"))
  /\ apiClient exampleBaseUrl (mockedFetch (responseOf 404 (js "not found"))) (js "/x") None =
     Rejected (ThrownApiError
                 {| ApiError.name := js "ApiError";
                    ApiError.status := 404;
                    ApiError.message := js "not found" |}).
Proof.
  split; [repeat split|].
  exact (apiClient_rejects_with_ApiError exampleBaseUrl
           (mockedFetch (responseOf 404 (js "not found"))) (js "/x") None
           (responseOf 404 (js "not found")) (js "not found")
           eq_refl eq_refl eq_refl).
Defined.

Lemma apiClient_200_id :
  let bodyText := js "{" ++ quoted (js "id") ++ js ":" ++ quoted (js "1") ++ js "}" in
  let parsed := JSON.JObject [(js "id", JSON.JString (js "1"))] in
  (mockedFetch (responseOf 200 bodyText) (exampleBaseUrl ++ js "/x") (requestInit None)
     = Resolved (responseOf 200 bodyText)
   /\ Response.ok (responseOf 200 bodyText) = true
   /\ Response.json (responseOf 200 bodyText) = Resolved parsed)
  /\ apiClient exampleBaseUrl (mockedFetch (responseOf 200 bodyText)) (js "/x") None =
     Resolved parsed.
Proof.
  cbv zeta. split; [repeat split|].
  exact (apiClient_resolves_with_json exampleBaseUrl
           (mockedFetch
              (responseOf 200
                 (js "{" ++ quoted (js "id") ++ js ":" ++ quoted (js "1") ++ js "}")))
           (js "/x") None
           (responseOf 200
              (js "{" ++ quoted (js "id") ++ js ":" ++ quoted (js "1") ++ js "}"))
           (JSON.JObject [(js "id", JSON.JString (js "1"))])
           eq_refl eq_refl eq_refl).
Defined.

(** C3, as stated, fails on an ok response whose body is not JSON: for a
    204 with an empty body and for a 200 with the body [OK], [ok] is true,
    [response.json()] rejects and so does the returned promise. *)
Lemma apiClient_ok_body_not_json :
  (Response.ok (responseOf 204 (js "")) = true
   /\ apiClient exampleBaseUrl (mockedFetch (responseOf 204 (js ""))) (js "/x") None
      = Rejected (ThrownByPlatform (js "SyntaxError")))
  /\ (Response.ok (responseOf 200 (js "OK")) = true
      /\ apiClient exampleBaseUrl (mockedFetch (responseOf 200 (js "OK"))) (js "/x") None
         = Rejected (ThrownByPlatform (js "SyntaxError"))).
Proof. repeat split. Qed.

(** The headers that reach the transport. *)
Lemma requestInit_without_options :
  sentHeaders (requestInit None) = defaultHeaders.
Proof. reflexivity. Qed.

Lemma requestInit_without_headers (o : RequestInit) :
  headers o = Absent -> sentHeaders (requestInit (Some o)) = defaultHeaders.
Proof. intros H. unfold sentHeaders, requestInit, optionalHeaders. simpl. rewrite H. reflexivity. Qed.

Lemma requestInit_own_headers (o : RequestInit) (v : option (gmap (list N) (list N))) :
  headers o = Own v -> headers (requestInit (Some o)) = Own v.
Proof. intros H. unfold requestInit. simpl. rewrite H. reflexivity. Qed.

Lemma mergedHeaders_default (h : gmap (list N) (list N)) :
  h !! js "Content-Type" = None ->
  mergedHeaders (Some h) !! js "Content-Type" = Some (js "application/json").
Proof.
  intros H. unfold mergedHeaders, defaultHeaders.
  rewrite lookup_union_r by exact H. apply lookup_singleton_eq.
Qed.

(** For caller's headers without a [Content-Type] the request differs from
    the merge the object literal starts with. *)
Lemma sentHeaders_not_merged (o : RequestInit) (h : gmap (list N) (list N)) :
  headers o = Own (Some h) ->
  h !! js "Content-Type" = None ->
  sentHeaders (requestInit (Some o)) = h
  /\ sentHeaders (requestInit (Some o)) <> mergedHeaders (optionalHeaders (Some o)).
Proof.
  intros Ho Hh.
  assert (sentHeaders (requestInit (Some o)) = h) as Hsent.
  { unfold sentHeaders. rewrite (requestInit_own_headers o _ Ho). reflexivity. }
  split; [exact Hsent|].
  rewrite Hsent. unfold optionalHeaders. rewrite Ho. intros Heq.
  apply (f_equal (fun m => m !! js "Content-Type")) in Heq.
  rewrite (mergedHeaders_default h Hh), Hh in Heq. discriminate.
Qed.

(** C2 at a failing input.  With the options
    [{ headers: { Authorization: "Bearer t" } }] the spread of [options]
    replaces the merged headers by the caller's: the request carries
    [Authorization] alone, the default [Content-Type] that the merge had
    kept is lost, and a server that accepts JSON only answers 415, while
    it accepts the same call made without options. *)
Theorem apiClient_headers_replaced :
  let options :=
    Some {| method := Absent;
            headers := Own (Some {[ js "Authorization" := js "Bearer t" ]});
            body := Absent |} in
  sentHeaders (requestInit options) = {[ js "Authorization" := js "Bearer t" ]}
  /\ sentHeaders (requestInit options) <> mergedHeaders (optionalHeaders options)
  /\ sentHeaders (requestInit options) !! js "Content-Type" = None
  /\ mergedHeaders (optionalHeaders options) !! js "Content-Type"
     = Some (js "application/json")
  /\ apiClient exampleBaseUrl jsonOnlyFetch (js "/x") options =
     Rejected (ThrownApiError (ApiError.new 415 (js "Unsupported Media Type")))
  /\ apiClient exampleBaseUrl jsonOnlyFetch (js "/x") None = Resolved (JSON.JObject []).
Proof.
  cbv zeta. split; [reflexivity|].
  split.
  { eapply sentHeaders_not_merged; [reflexivity | vm_compute; reflexivity]. }
  split; [vm_compute; reflexivity|].
  split; [apply mergedHeaders_default; vm_compute; reflexivity|].
  split; vm_compute; reflexivity.
Qed.

End ApiClientSamples.

(** ** The auth context: claims *)

Section AuthContextClaims.
Import JS AuthContext.

Lemma underProvider_useContext (ancestors : list Ancestor) :
  underProvider ancestors = true <-> is_Some (useContext ancestors).
Proof.
  induction ancestors as [|[state|] above IH]; simpl.
  - split; [discriminate | intros [x Hx]; discriminate].
  - split; eauto.
  - exact IH.
Qed.

(** The value found is the one of the nearest provider above the consumer. *)
Lemma useContext_nearest (others : list Ancestor) (state : option User)
    (above : list Ancestor) :
  underProvider others = false ->
  useContext (others ++ AuthProviderAbove state :: above) = Some (AuthProvider state).
Proof.
  induction others as [|[st|] others IH]; simpl; auto. discriminate.
Qed.

(** C4.  A consumer that is not nested under an [AuthProvider] finds [null]
    in the context, and [useAuth] throws instead of returning a value; a
    consumer inside a provider scope gets the context value back, and
    nothing is thrown. *)
Theorem useAuth_guard (ancestors : list Ancestor) :
  (underProvider ancestors = false ->
     useContext ancestors = None
     /\ useAuth ancestors
        = inl (MkError (js "useAuth must be used within an AuthProvider")))
  /\ (underProvider ancestors = true ->
        exists context,
          useContext ancestors = Some context /\ useAuth ancestors = inr context).
Proof.
  unfold useAuth. split; intros H.
  - destruct (useContext ancestors) as [context|] eqn:E; [|auto].
    assert (underProvider ancestors = true) as H'
      by (apply underProvider_useContext; rewrite E; eauto).
    congruence.
  - apply underProvider_useContext in H as [context E].
    exists context. rewrite E. auto.
Qed.

Lemma useAuth_guard_samples :
  (underProvider [OtherComponent; OtherComponent] = false
   /\ useAuth [OtherComponent; OtherComponent]
      = inl (MkError (js "useAuth must be used within an AuthProvider")))
  /\ (underProvider [OtherComponent; AuthProviderAbove None; OtherComponent] = true
      /\ exists context,
           useContext [OtherComponent; AuthProviderAbove None; OtherComponent]
             = Some context
           /\ useAuth [OtherComponent; AuthProviderAbove None; OtherComponent]
              = inr context).
Proof.
  split; (split; [reflexivity|]).
  - exact (proj2 (proj1 (useAuth_guard [OtherComponent; OtherComponent]) eq_refl)).
  - exact (proj2 (useAuth_guard [OtherComponent; AuthProviderAbove None; OtherComponent])
             eq_refl).
Defined.

(** The mutators of any render act alike on the cell, whatever it holds. *)
Lemma logout_any_render (rendered state : option User) :
  logout (AuthProvider rendered) state = None.
Proof. reflexivity. Qed.

Lemma login_any_render (U : User) (rendered state : option User) :
  login (AuthProvider rendered) U state = Some U.
Proof. reflexivity. Qed.

Lemma run_app (calls more : list Call) (state : option User) :
  run (calls ++ more) state = run more (run calls state).
Proof. unfold run. apply fold_left_app. Qed.

(** C5.  [logout()] takes every state, [Anonymous] or [Authenticated U],
    to [Anonymous]: after it the context's [user] is [null], whatever
    calls came before; in particular after
    [login({id:"1", email:"a@b.com", name:"A"})] followed by [logout()]. *)
Theorem logout_Anonymous :
  (forall state, step state CallLogout = Anonymous)
  /\ (forall calls state,
        user (AuthProvider (run (calls ++ [CallLogout]) state)) = None)
  /\ user (AuthProvider
             (run [CallLogin {| id := js "1"; email := js "a@b.com"; name := js "A" |};
                   CallLogout]
                  initialUser)) = None.
Proof.
  split; [|split].
  - intros state. unfold step. apply logout_any_render.
  - intros calls state. rewrite run_app. reflexivity.
  - reflexivity.
Qed.

(** C6.  For every user record [U] and every prior state, [login(U)]
    yields [Authenticated U], overwriting the cell; performing it twice in
    succession yields the same state as performing it once. *)
Theorem login_Authenticated (U : User) (state : option User) :
  step state (CallLogin U) = Authenticated U
  /\ user (AuthProvider (step state (CallLogin U))) = Some U
  /\ step (step state (CallLogin U)) (CallLogin U) = step state (CallLogin U).
Proof.
  unfold step. rewrite !login_any_render. repeat split.
Qed.

End AuthContextClaims.

(** * Further properties *)

(** ** The validators *)

Section ValidatorProperties.
Import JS Validators Shapes Readings TrimFacts RegExpFacts.

Lemma isNonEmpty_existsb (s : list N) :
  isNonEmpty s = existsb (fun c => negb (isWhiteSpace c)) s.
Proof. apply eq_true_iff_eq, isNonEmpty_true_iff. Qed.

Lemma noWhiteSpace_trim (s : list N) : noWhiteSpace s = true -> trim s = s.
Proof.
  intros H. symmetry. apply Trimmed_unique.
  assert (forall c, In c s -> isWhiteSpace c = false) as Hin.
  { intros c Hc. unfold noWhiteSpace in H. rewrite forallb_forall in H.
    apply negb_true_iff, H, Hc. }
  exists [], []. rewrite app_nil_r. repeat split; auto.
  - intros c Hc. apply Hin. destruct s; [discriminate|].
    injection Hc as ->. left. reflexivity.
  - intros c Hc. apply Hin, list_elem_of_In, last_Some_elem_of, Hc.
Qed.

Lemma plainPart_length (p : list N) : plainPart p -> (1 <= length p)%nat.
Proof. intros [H _]. destruct p; [congruence | simpl; lia]. Qed.

Lemma contains_occurrences (c : N) (s : list N) :
  contains c s = false -> occurrences c s = 0%nat.
Proof.
  unfold contains, occurrences. induction s as [|d s IH]; simpl; [reflexivity|].
  intros [Hd Hs]%orb_false_iff. rewrite Hd. auto.
Qed.

Lemma occurrences_app (c : N) (x y : list N) :
  occurrences c (x ++ y) = (occurrences c x + occurrences c y)%nat.
Proof. unfold occurrences. rewrite List.filter_app. apply length_app. Qed.

(** X1.  [isNonEmpty s] is true exactly when [s] holds a code unit that is
    not white space. *)
Theorem isNonEmpty_iff_visible (s : list N) :
  isNonEmpty s = true <-> exists c, In c s /\ isWhiteSpace c = false.
Proof.
  rewrite isNonEmpty_existsb, existsb_exists. split.
  - intros (c & Hc & W). exists c. split; [exact Hc | exact (proj1 (negb_true_iff _) W)].
  - intros (c & Hc & W). exists c. rewrite W. auto.
Qed.

(** X2.  A concatenation is non-empty exactly when one of its two parts is;
    so padding a string with white space on either side changes nothing. *)
Theorem isNonEmpty_app (a b : list N) :
  isNonEmpty (a ++ b) = isNonEmpty a || isNonEmpty b.
Proof. rewrite !isNonEmpty_existsb. apply existsb_app. Qed.

(** X3.  Trimming the argument first does not change the answer of
    [isNonEmpty]. *)
Theorem isNonEmpty_trim (s : list N) : isNonEmpty (trim s) = isNonEmpty s.
Proof.
  destruct (trim_Trimmed s) as (l & r & Hs & Hl & Hr & _).
  rewrite Hs at 2. rewrite !isNonEmpty_existsb, !existsb_app.
  assert (forall w, forallb isWhiteSpace w = true ->
                    existsb (fun c => negb (isWhiteSpace c)) w = false) as Hw.
  { intros w H. induction w as [|c w IH]; simpl in *; [reflexivity|].
    apply andb_true_iff in H as [-> H]. simpl. auto. }
  rewrite (Hw l Hl), (Hw r Hr), orb_false_r. reflexivity.
Qed.

(** X4.  [isValidEmail] accepts exactly the strings [local@domain.tld]
    whose three parts are non-empty and hold neither white space nor [@]. *)
Theorem isValidEmail_accepts_exactly (s : list N) :
  isValidEmail s = true <->
  exists l d t,
    s = l ++ [AT] ++ d ++ [DOT] ++ t
    /\ (l <> [] /\ noWhiteSpace l = true /\ contains AT l = false)
    /\ (d <> [] /\ noWhiteSpace d = true /\ contains AT d = false)
    /\ (t <> [] /\ noWhiteSpace t = true /\ contains AT t = false).
Proof. apply isValidEmail_iff. Qed.

(** X5.  A string that [isValidEmail] accepts holds exactly one [@]. *)
Theorem isValidEmail_one_at (s : list N) :
  isValidEmail s = true -> occurrences AT s = 1%nat.
Proof.
  intros (l & d & t & -> & (_ & _ & Al) & (_ & _ & Ad) & (_ & _ & At_))%isValidEmail_iff.
  rewrite !occurrences_app.
  rewrite (contains_occurrences AT l Al), (contains_occurrences AT d Ad),
    (contains_occurrences AT t At_).
  reflexivity.
Qed.

Lemma isValidEmail_one_at_sample :
  isValidEmail (js "first.last@mail.example.org") = true
  /\ occurrences AT (js "first.last@mail.example.org") = 1%nat.
Proof.
  split; [reflexivity|].
  apply (isValidEmail_one_at (js "first.last@mail.example.org")). reflexivity.
Defined.

(** X6.  A string that [isValidEmail] accepts holds no white space at all,
    so trimming leaves it as it is: an address with white space around it
    is rejected. *)
Theorem isValidEmail_no_white_space (s : list N) :
  isValidEmail s = true -> noWhiteSpace s = true /\ trim s = s.
Proof.
  intros (l & d & t & -> & (_ & Wl & _) & (_ & Wd & _) & (_ & Wt & _))%isValidEmail_iff.
  assert (noWhiteSpace (l ++ [AT] ++ d ++ [DOT] ++ t) = true) as H.
  { rewrite !noWhiteSpace_app, Wl, Wd, Wt. reflexivity. }
  split; [exact H | apply noWhiteSpace_trim, H].
Qed.

Lemma isValidEmail_no_white_space_sample :
  isValidEmail (js "a@b.com") = true
  /\ noWhiteSpace (js "a@b.com") = true /\ trim (js "a@b.com") = js "a@b.com".
Proof.
  split; [reflexivity|].
  apply (isValidEmail_no_white_space (js "a@b.com")). reflexivity.
Defined.

(** X7.  A string that [isValidEmail] accepts has at least five code
    units. *)
Theorem isValidEmail_min_length (s : list N) :
  isValidEmail s = true -> (5 <= length s)%nat.
Proof.
  intros (l & d & t & -> & Hl & Hd & Ht)%isValidEmail_iff.
  apply plainPart_length in Hl, Hd, Ht.
  rewrite !length_app. simpl. lia.
Qed.

Lemma isValidEmail_min_length_sample :
  isValidEmail (js "a@b.c") = true /\ (5 <= length (js "a@b.c"))%nat.
Proof.
  split; [reflexivity|].
  apply (isValidEmail_min_length (js "a@b.c")). reflexivity.
Defined.

(** X8.  An accepted address stays accepted when a dot and a further
    non-empty label without white space and [@] is appended: domains of any
    number of labels pass. *)
Theorem isValidEmail_more_labels (s label : list N) :
  isValidEmail s = true ->
  label <> [] -> noWhiteSpace label = true -> contains AT label = false ->
  isValidEmail (s ++ [DOT] ++ label) = true.
Proof.
  intros (l & d & t & -> & Hl & (Hd & Wd & Ad) & (Ht & Wt & At_))%isValidEmail_iff
    Hne Wn An.
  apply isValidEmail_iff. exists l, (d ++ [DOT] ++ t), label.
  split; [rewrite <- !app_assoc; reflexivity|].
  split; [exact Hl|]. split; [|unfold plainPart; auto].
  split; [destruct d; [congruence | discriminate]|].
  rewrite !noWhiteSpace_app, !contains_app, Wd, Wt, Ad, At_. split; reflexivity.
Qed.

Lemma isValidEmail_more_labels_sample :
  (isValidEmail (js "a@b.co") = true
   /\ js "uk" <> [] /\ noWhiteSpace (js "uk") = true /\ contains AT (js "uk") = false)
  /\ isValidEmail (js "a@b.co" ++ [DOT] ++ js "uk") = true.
Proof.
  split; [repeat split; discriminate|].
  apply (isValidEmail_more_labels (js "a@b.co") (js "uk"));
    first [discriminate | reflexivity].
Defined.

End ValidatorProperties.

(** ** The API client *)

Section ApiClientProperties.
Import JS Api Readings.

Variable API_BASE_URL : list N.
Variable fetch : list N -> RequestInit -> Promise Response.t.

(** X9.  An [ApiError] comes from a response that is not ok, and from
    nothing else: when neither the transport nor the body readers reject
    with an [ApiError] of their own and [apiClient] rejects with the
    [ApiError] [e], then the transport answered with a response whose [ok]
    is false, whose status is [e.status] and whose body text is
    [e.message]. *)
Theorem apiClient_ApiError_origin
    (endpoint : list N) (options : option RequestInit) (e : ApiError.t) :
  rejectsWithApiError (fetch (API_BASE_URL ++ endpoint) (requestInit options)) = false ->
  (forall response,
      fetch (API_BASE_URL ++ endpoint) (requestInit options) = Resolved response ->
      rejectsWithApiError (Response.text response) = false
      /\ rejectsWithApiError (Response.json response) = false) ->
  apiClient API_BASE_URL fetch endpoint options = Rejected (ThrownApiError e) ->
  exists response,
    fetch (API_BASE_URL ++ endpoint) (requestInit options) = Resolved response
    /\ Response.ok response = false
    /\ Response.status response = ApiError.status e
    /\ Response.text response = Resolved (ApiError.message e)
    /\ ApiError.name e = js "ApiError".
Proof.
  intros Hfetch Hbody. unfold apiClient.
  destruct (fetch _ _) as [response|[e'|name]] eqn:E; simpl in *;
    [|discriminate|discriminate].
  destruct (Hbody response eq_refl) as [Htext Hjson].
  destruct (Response.ok response) eqn:Hok; simpl.
  - intros H. rewrite H in Hjson. discriminate.
  - destruct (Response.text response) as [message|[e'|name]] eqn:T; simpl in *;
      [|discriminate|discriminate].
    intros [= <-]. exists response. auto.
Qed.

(** X10.  [apiClient] resolves only through the success path: a resolved
    value is the one [json()] gave for a response whose [ok] is true. *)
Theorem apiClient_resolved_origin
    (endpoint : list N) (options : option RequestInit) (v : JSON.value) :
  apiClient API_BASE_URL fetch endpoint options = Resolved v ->
  exists response,
    fetch (API_BASE_URL ++ endpoint) (requestInit options) = Resolved response
    /\ Response.ok response = true
    /\ Response.json response = Resolved v.
Proof.
  unfold apiClient.
  destruct (fetch _ _) as [response|reason]; simpl; [|discriminate].
  destruct (Response.ok response) eqn:Hok; simpl.
  - intros H. exists response. auto.
  - destruct (Response.text response); simpl; discriminate.
Qed.

(** X11.  The client hands failures on as they are: a rejection of the
    transport, a rejection of [json()] on an ok response, and a rejection of
    [text()] on a response that is not ok each reject the call with the
    same reason. *)
Theorem apiClient_failures_pass_through
    (endpoint : list N) (options : option RequestInit) (reason : Thrown) :
  (fetch (API_BASE_URL ++ endpoint) (requestInit options) = Rejected reason ->
   apiClient API_BASE_URL fetch endpoint options = Rejected reason)
  /\ (forall response,
        fetch (API_BASE_URL ++ endpoint) (requestInit options) = Resolved response ->
        Response.ok response = true ->
        Response.json response = Rejected reason ->
        apiClient API_BASE_URL fetch endpoint options = Rejected reason)
  /\ (forall response,
        fetch (API_BASE_URL ++ endpoint) (requestInit options) = Resolved response ->
        Response.ok response = false ->
        Response.text response = Rejected reason ->
        apiClient API_BASE_URL fetch endpoint options = Rejected reason).
Proof.
  unfold apiClient. split; [|split].
  - intros ->. reflexivity.
  - intros response -> Hok Hjson. simpl. rewrite Hok. exact Hjson.
  - intros response -> Hok Htext. simpl. rewrite Hok, Htext. reflexivity.
Qed.

End ApiClientProperties.

Section RequestInitProperties.
Import JS Api Readings.



(** X13.  Every header the caller supplies reaches the request with the
    caller's value, [Content-Type] included. *)
Theorem requestInit_keeps_caller_headers
    (o : RequestInit) (h : gmap (list N) (list N)) (k v : list N) :
  headers o = Own (Some h) ->
  h !! k = Some v ->
  sentHeaders (requestInit (Some o)) !! k = Some v.
Proof.
  intros Ho Hk. unfold sentHeaders, requestInit. simpl. rewrite Ho. exact Hk.
Qed.

Lemma requestInit_keeps_caller_headers_sample :
  sentHeaders
    (requestInit
       (Some {| method := Absent;
                headers := Own (Some {[ js "Content-Type" := js "text/plain" ]});
                body := Absent |}))
    !! js "Content-Type" = Some (js "text/plain").
Proof.
  apply (requestInit_keeps_caller_headers _ {[ js "Content-Type" := js "text/plain" ]});
    [reflexivity | vm_compute; reflexivity].
Defined.

End RequestInitProperties.

Section ApiClientPropertySamples.
Import JS Api Readings.

Lemma apiClient_ApiError_origin_sample :
  exists response,
    mockedFetch (responseOf 500 (js "boom")) (exampleBaseUrl ++ js "/x") (requestInit None)
      = Resolved response
    /\ Response.ok response = false
    /\ Response.status response = 500%Z
    /\ Response.text response = Resolved (js "boom")
    /\ js "ApiError" = js "ApiError".
Proof.
  apply (apiClient_ApiError_origin exampleBaseUrl
           (mockedFetch (responseOf 500 (js "boom"))) (js "/x") None
           (ApiError.new 500 (js "boom"))).
  - reflexivity.
  - intros response [= <-]. split; reflexivity.
  - reflexivity.
Defined.

Lemma apiClient_resolved_origin_sample :
  exists response,
    mockedFetch (responseOf 200 (js "[1,2]")) (exampleBaseUrl ++ js "/x") (requestInit None)
      = Resolved response
    /\ Response.ok response = true
    /\ Response.json response
       = Resolved (JSON.JArray [JSON.JNumber (js "1"); JSON.JNumber (js "2")]).
Proof.
  apply (apiClient_resolved_origin exampleBaseUrl
           (mockedFetch (responseOf 200 (js "[1,2]"))) (js "/x") None).
  reflexivity.
Defined.

Lemma apiClient_failures_pass_through_samples :
  apiClient exampleBaseUrl (fun _ _ => Rejected (ThrownByPlatform (js "TypeError")))
    (js "/x") None = Rejected (ThrownByPlatform (js "TypeError"))
  /\ apiClient exampleBaseUrl (mockedFetch (responseOf 204 (js ""))) (js "/x") None
     = Rejected (ThrownByPlatform (js "SyntaxError")).
Proof.
  split.
  - apply (proj1 (apiClient_failures_pass_through exampleBaseUrl
                    (fun _ _ => Rejected (ThrownByPlatform (js "TypeError")))
                    (js "/x") None (ThrownByPlatform (js "TypeError")))).
    reflexivity.
  - apply (proj1 (proj2 (apiClient_failures_pass_through exampleBaseUrl
                           (mockedFetch (responseOf 204 (js ""))) (js "/x") None
                           (ThrownByPlatform (js "SyntaxError"))))
             (responseOf 204 (js ""))); reflexivity.
Defined.

End ApiClientPropertySamples.

(** ** The auth context *)

Section AuthContextProperties.
Import JS AuthContext TestUtils.

Lemma step_value (state : option User) (c : Call) :
  step state c = match c with CallLogin u => Some u | CallLogout => None end.
Proof. destruct c; reflexivity. Qed.

(** X14.  The state after a sequence of calls is decided by the last call
    alone: the user of a final [login], [null] after a final [logout],
    whatever the state before and the calls made earlier. *)
Theorem run_last_call (calls : list Call) (c : Call) (state : option User) :
  run (calls ++ [c]) state
  = match c with CallLogin u => Authenticated u | CallLogout => Anonymous end.
Proof. unfold run. rewrite fold_left_app. simpl. apply step_value. Qed.

(** X15.  The context never holds a user it was not given: a user found
    after a sequence of calls on a fresh provider was the argument of a
    [login] among them. *)
Theorem run_user_was_logged_in (calls : list Call) (u : User) :
  run calls initialUser = Some u -> In (CallLogin u) calls.
Proof.
  destruct calls as [|c calls] using rev_ind; [discriminate|].
  unfold run. rewrite fold_left_app. simpl. rewrite step_value.
  destruct c as [u'|]; [|discriminate].
  intros [= ->]. apply in_or_app. right. left. reflexivity.
Qed.

Lemma run_user_was_logged_in_sample :
  let a := {| id := js "1"; email := js "a@b.com"; name := js "A" |} in
  let b := {| id := js "2"; email := js "b@b.com"; name := js "B" |} in
  run [CallLogin a; CallLogout; CallLogin b] initialUser = Some b
  /\ In (CallLogin b) [CallLogin a; CallLogout; CallLogin b].
Proof.
  cbv zeta. split; [reflexivity|].
  apply (run_user_was_logged_in
           [CallLogin {| id := js "1"; email := js "a@b.com"; name := js "A" |};
            CallLogout;
            CallLogin {| id := js "2"; email := js "b@b.com"; name := js "B" |}]).
  reflexivity.
Defined.

(** X16.  Under nested providers [useAuth] returns the value of the
    innermost one: its [user] is the state of the nearest provider above
    the consumer, whatever providers lie further out. *)
Theorem useAuth_innermost
    (others : list Ancestor) (state : option User) (above : list Ancestor) :
  underProvider others = false ->
  useAuth (others ++ AuthProviderAbove state :: above) = inr (AuthProvider state)
  /\ user (AuthProvider state) = state.
Proof.
  intros H. unfold useAuth.
  assert (useContext (others ++ AuthProviderAbove state :: above)
          = Some (AuthProvider state)) as ->; [|auto].
  induction others as [|[st|] others IH]; simpl in *; auto. discriminate.
Qed.

Lemma useAuth_innermost_sample :
  let inner := Some {| id := js "1"; email := js "a@b.com"; name := js "A" |} in
  underProvider [OtherComponent] = false
  /\ useAuth [OtherComponent; AuthProviderAbove inner; AuthProviderAbove None]
     = inr (AuthProvider inner).
Proof.
  cbv zeta. split; [reflexivity|].
  exact (proj1 (useAuth_innermost [OtherComponent]
                  (Some {| id := js "1"; email := js "a@b.com"; name := js "A" |})
                  [AuthProviderAbove None] eq_refl)).
Defined.

(** X17.  Whatever [useAuth] returns was provided: the value is the render
    of an [AuthProvider] that stands above the consumer. *)
Theorem useAuth_returns_provided
    (ancestors : list Ancestor) (context : AuthContextValue) :
  useAuth ancestors = inr context ->
  exists state,
    In (AuthProviderAbove state) ancestors /\ context = AuthProvider state.
Proof.
  unfold useAuth.
  induction ancestors as [|[state|] above IH]; simpl.
  - discriminate.
  - intros [= <-]. exists state. auto.
  - intros H. destruct (IH H) as (state & Hin & ->). exists state. auto.
Qed.

Lemma useAuth_returns_provided_sample :
  exists state,
    In (AuthProviderAbove state) [OtherComponent; AuthProviderAbove None]
    /\ AuthProvider None = AuthProvider state.
Proof.
  apply (useAuth_returns_provided [OtherComponent; AuthProviderAbove None]
           (AuthProvider None)).
  reflexivity.
Defined.

(** X18.  What the test utilities' [render] wraps around a component holds
    no [AuthProvider]: a consumer that has none above it inside the rendered
    element makes [useAuth] throw, and one that has gets the value of its
    own provider. *)
Theorem customRender_useAuth (within : list Ancestor) :
  (underProvider within = false ->
   useAuth (customRender within)
   = inl (MkError (js "useAuth must be used within an AuthProvider")))
  /\ (underProvider within = true ->
      useAuth (customRender within) = useAuth within).
Proof.
  unfold customRender, useAuth.
  assert (useContext (within ++ AllProviders) = useContext within) as ->.
  { induction within as [|[st|] within IH]; simpl; auto. }
  split; intros H; [|reflexivity].
  destruct (useContext within) eqn:E; [|reflexivity].
  assert (underProvider within = true) as H'; [|congruence].
  clear H. induction within as [|[st|] within IH]; simpl in *; auto. discriminate.
Qed.

Lemma customRender_useAuth_samples :
  (underProvider [OtherComponent] = false
   /\ useAuth (customRender [OtherComponent])
      = inl (MkError (js "useAuth must be used within an AuthProvider")))
  /\ (underProvider [AuthProviderAbove None] = true
      /\ useAuth (customRender [AuthProviderAbove None]) = inr (AuthProvider None)).
Proof.
  split; (split; [reflexivity|]).
  - exact (proj1 (customRender_useAuth [OtherComponent]) eq_refl).
  - exact (proj2 (customRender_useAuth [AuthProviderAbove None]) eq_refl).
Defined.

End AuthContextProperties.

(** ** The button *)

Section ButtonProperties.
Import JS Button.

Variable cn : list ClassValue -> list N.

Lemma lookup_foldr_delete (m : gmap (list N) AttrValue) (ks : list (list N)) (k : list N) :
  foldr delete m ks !! k = if bool_decide (k ∈ ks) then None else m !! k.
Proof.
  induction ks as [|k' ks IH].
  - case_bool_decide as H; [|reflexivity]. apply elem_of_nil in H. contradiction.
  - cbn [foldr]. rewrite lookup_delete, IH.
    destruct (decide (k' = k)) as [->|Hne].
    + rewrite bool_decide_eq_true_2 by left. reflexivity.
    + destruct (decide (k ∈ ks)) as [Hin|Hnin].
      * rewrite (bool_decide_eq_true_2 _ Hin).
        rewrite bool_decide_eq_true_2 by (right; exact Hin). reflexivity.
      * rewrite (bool_decide_eq_false_2 _ Hnin).
        rewrite bool_decide_eq_false_2; [reflexivity|].
        intros [Heq|H]%elem_of_cons; [congruence | exact (Hnin H)].
Qed.

Lemma lookup_restProps_named (p : ButtonProps) (k : list N) :
  k ∈ namedKeys -> restProps p !! k = None.
Proof.
  intros H. unfold restProps. rewrite lookup_foldr_delete.
  rewrite bool_decide_eq_true_2; [reflexivity | exact H].
Qed.

Lemma lookup_restProps_other (p : ButtonProps) (k : list N) :
  k ∉ namedKeys -> restProps p !! k = passed p !! k.
Proof.
  intros H. unfold restProps. rewrite lookup_foldr_delete.
  rewrite bool_decide_eq_false_2; [reflexivity | exact H].
Qed.

(** X19.  The button is disabled exactly when [disabled] is true or
    [isLoading] is true, and no other prop of the caller changes the
    [disabled] or the [className] attribute that the component computes:
    both stay the same when the rest of the props object is replaced. *)
Theorem Button_disabled (p : ButtonProps) :
  (exists off,
      attributes (Button cn p) !! js "disabled" = Some (AttrBool off)
      /\ (off = true <-> disabled p = Some true \/ isLoading p = Some true))
  /\ (forall others,
        let q := {| variant := variant p; size := size p; isLoading := isLoading p;
                    className := className p; children := children p;
                    disabled := disabled p; passed := others |} in
        attributes (Button cn q) !! js "disabled"
          = attributes (Button cn p) !! js "disabled"
        /\ attributes (Button cn q) !! js "className"
           = attributes (Button cn p) !! js "className").
Proof.
  split.
  - exists (orLoading (disabled p) (default false (isLoading p))).
    unfold Button. cbn [attributes].
    rewrite lookup_union_r
      by (apply lookup_restProps_named; vm_compute; repeat constructor).
    split; [apply lookup_insert_eq|].
    destruct (disabled p) as [[|]|], (isLoading p) as [[|]|]; simpl;
      intuition congruence.
  - intros others q. unfold Button. cbn [attributes].
    rewrite !lookup_union_r
      by (apply lookup_restProps_named; vm_compute; repeat constructor).
    split; reflexivity.
Qed.

(** X20.  While [isLoading] is true the button shows the loading text in
    place of its children and is disabled, whatever [disabled] says;
    otherwise it shows its children. *)
Theorem Button_loading (p : ButtonProps) :
  (isLoading p = Some true ->
   content (Button cn p) = TextNode (js "Loading" ++ [0x2026])
   /\ attributes (Button cn p) !! js "disabled" = Some (AttrBool true))
  /\ (isLoading p <> Some true -> content (Button cn p) = children p).
Proof.
  unfold Button. cbn [attributes content]. split.
  - intros ->. split; [reflexivity|].
    rewrite lookup_union_r
      by (apply lookup_restProps_named; vm_compute; repeat constructor).
    rewrite lookup_insert_eq. destruct (disabled p) as [[|]|]; reflexivity.
  - destruct (isLoading p) as [[|]|]; [congruence | reflexivity | reflexivity].
Qed.

End ButtonProperties.

Section ButtonClassArguments.
Import JS Button.

(** The [className] attribute is [cn] applied to the computed classes
    followed by the caller's [className]. *)
Lemma Button_className (cn : list ClassValue -> list N) (p : ButtonProps) :
  attributes (Button cn p) !! js "className"
  = Some (AttrString
            (cn (computedClasses p
                 ++ [match className p with
                     | Some c => ClassString c
                     | None => ClassUndefined
                     end]))).
Proof.
  unfold Button. cbn [attributes].
  rewrite lookup_union_r
    by (apply lookup_restProps_named; vm_compute; repeat constructor).
  rewrite lookup_insert_ne by (vm_compute; congruence).
  apply lookup_singleton_eq.
Qed.

(** Two argument lists that every [cn] maps to the same class name are the
    same list. *)
Lemma cn_arguments_unique (a b : list ClassValue) :
  (forall cn : list ClassValue -> list N, cn a = cn b) -> a = b.
Proof.
  intros H.
  specialize (H (fun x => if bool_decide (x = b) then [1] else [])).
  simpl in H. rewrite (bool_decide_eq_true_2 (b = b) eq_refl) in H.
  destruct (bool_decide_reflect (a = b)) as [Heq|_]; [exact Heq | discriminate].
Qed.

(** The arguments [Button] hands to [cn]: the list [computed] followed by
    the caller's [className], and no other list. *)
Lemma Button_cn_arguments (p : ButtonProps) :
  let last := match className p with
              | Some c => ClassString c
              | None => ClassUndefined
              end in
  (forall cn,
      attributes (Button cn p) !! js "className"
      = Some (AttrString (cn (computedClasses p ++ [last]))))
  /\ (forall args,
        (forall cn,
            attributes (Button cn p) !! js "className" = Some (AttrString (cn args))) ->
        args = computedClasses p ++ [last]).
Proof.
  cbv zeta. split.
  - intros cn. apply Button_className.
  - intros args H. apply cn_arguments_unique. intros cn.
    specialize (H cn). rewrite Button_className in H. congruence.
Qed.

(** X21.  [Button] calls [cn] with a list of arguments that ends with the
    caller's [className]; among the arguments before it, of the three
    variant classes and the three size classes exactly the one of the
    chosen variant and the one of the chosen size occur, [primary] and [md]
    when none is given. *)
Theorem Button_variant_and_size (p : ButtonProps) :
  exists computed,
    (forall cn,
        attributes (Button cn p) !! js "className"
        = Some (AttrString
                  (cn (computed
                       ++ [match className p with
                           | Some c => ClassString c
                           | None => ClassUndefined
                           end]))))
    /\ (forall args,
          (forall cn,
              attributes (Button cn p) !! js "className"
              = Some (AttrString (cn args))) ->
          args = computed
                 ++ [match className p with
                     | Some c => ClassString c
                     | None => ClassUndefined
                     end])
    /\ hasClass (js "bg-blue-600 text-white hover:bg-blue-700") computed
       = isVariant (default primary (variant p)) primary
    /\ hasClass (js "bg-gray-100 text-gray-900 hover:bg-gray-200") computed
       = isVariant (default primary (variant p)) secondary
    /\ hasClass (js "bg-red-600 text-white hover:bg-red-700") computed
       = isVariant (default primary (variant p)) danger
    /\ hasClass (js "px-3 py-1.5 text-sm") computed
       = isSize (default md (size p)) sm
    /\ hasClass (js "px-4 py-2 text-sm") computed
       = isSize (default md (size p)) md
    /\ hasClass (js "px-6 py-3 text-base") computed
       = isSize (default md (size p)) lg.
Proof.
  exists (computedClasses p).
  split; [exact (proj1 (Button_cn_arguments p))|].
  split; [exact (proj2 (Button_cn_arguments p))|].
  destruct p as [v s l c ch d ps]. unfold computedClasses.
  cbn [variant size isLoading disabled].
  destruct v as [[| |]|], s as [[| |]|], d as [[|]|], l as [[|]|];
    vm_compute; repeat split.
Qed.

(** X22.  The style of a disabled button goes with the attribute: among
    the arguments that [Button] hands to [cn] before the caller's
    [className], the classes [cursor-not-allowed opacity-50] occur exactly
    when the rendered [disabled] attribute is true. *)
Theorem Button_disabled_style (p : ButtonProps) :
  exists computed,
    (forall cn,
        attributes (Button cn p) !! js "className"
        = Some (AttrString
                  (cn (computed
                       ++ [match className p with
                           | Some c => ClassString c
                           | None => ClassUndefined
                           end]))))
    /\ (forall args,
          (forall cn,
              attributes (Button cn p) !! js "className"
              = Some (AttrString (cn args))) ->
          args = computed
                 ++ [match className p with
                     | Some c => ClassString c
                     | None => ClassUndefined
                     end])
    /\ (forall cn,
          attributes (Button cn p) !! js "disabled"
          = Some (AttrBool (hasClass (js "cursor-not-allowed opacity-50") computed))).
Proof.
  exists (computedClasses p).
  split; [exact (proj1 (Button_cn_arguments p))|].
  split; [exact (proj2 (Button_cn_arguments p))|].
  intros cn. unfold Button. cbn [attributes].
  rewrite lookup_union_r
    by (apply lookup_restProps_named; vm_compute; repeat constructor).
  rewrite lookup_insert_eq. do 2 f_equal.
  destruct p as [v s l c ch d ps]. unfold computedClasses.
  cbn [variant size isLoading disabled].
  destruct v as [[| |]|], s as [[| |]|], d as [[|]|], l as [[|]|];
    vm_compute; reflexivity.
Qed.

End ButtonClassArguments.

Section ButtonRestProperties.
Import JS Button.

Variable cn : list ClassValue -> list N.

(** X23.  Every prop that the parameter pattern does not name reaches the
    [<button>] as the caller passed it, and of the named ones [variant],
    [size], [isLoading] and [children] are not passed on as attributes. *)
Theorem Button_other_props (p : ButtonProps) :
  (forall k, k ∉ namedKeys -> attributes (Button cn p) !! k = passed p !! k)
  /\ attributes (Button cn p) !! js "variant" = None
  /\ attributes (Button cn p) !! js "size" = None
  /\ attributes (Button cn p) !! js "isLoading" = None
  /\ attributes (Button cn p) !! js "children" = None.
Proof.
  unfold Button. cbn [attributes]. split.
  - intros k Hk. rewrite lookup_union, (lookup_restProps_other p k Hk).
    assert (k <> js "disabled" /\ k <> js "className") as [Hd Hc].
    { split; intros ->; apply Hk; vm_compute; repeat constructor. }
    rewrite lookup_insert_ne, lookup_singleton_ne by congruence.
    destruct (passed p !! k); reflexivity.
  - repeat split;
      (rewrite lookup_union_r
         by (apply lookup_restProps_named; vm_compute; repeat constructor);
       rewrite lookup_insert_ne, lookup_singleton_ne by (vm_compute; congruence);
       reflexivity).
Qed.

End ButtonRestProperties.

Section ButtonSamples.
Import JS Button.

Example Button_sample :
  attributes
    (Button joinClasses
       {| variant := Some danger; size := None; isLoading := None;
          className := Some (js "w-full"); children := TextNode (js "Delete");
          disabled := None; passed := {[ js "type" := AttrString (js "submit") ]} |})
    !! js "className"
  = Some (AttrString
            (js ("inline-flex items-center justify-center rounded-md font-medium transition-colors"
                 +:+ " focus-visible:outline-none focus-visible:ring-2 focus-visible:ring-offset-2"
                 +:+ " bg-red-600 text-white hover:bg-red-700"
                 +:+ " px-4 py-2 text-sm"
                 +:+ " w-full"))).
Proof. vm_compute. reflexivity. Qed.

Lemma Button_loading_samples :
  (Some true = Some true
   /\ content
        (Button joinClasses
           {| variant := None; size := None; isLoading := Some true;
              className := None; children := TextNode (js "Save");
              disabled := Some false; passed := ∅ |})
      = TextNode (js "Loading" ++ [0x2026]))
  /\ (None <> Some true
      /\ content
           (Button joinClasses
              {| variant := None; size := None; isLoading := None;
                 className := None; children := TextNode (js "Save");
                 disabled := Some false; passed := ∅ |})
         = TextNode (js "Save")).
Proof.
  split; (split; [first [reflexivity | discriminate]|]).
  - exact (proj1 (proj1 (Button_loading joinClasses
                           {| variant := None; size := None; isLoading := Some true;
                              className := None; children := TextNode (js "Save");
                              disabled := Some false; passed := ∅ |}) eq_refl)).
  - apply (proj2 (Button_loading joinClasses
                    {| variant := None; size := None; isLoading := None;
                       className := None; children := TextNode (js "Save");
                       disabled := Some false; passed := ∅ |})).
    discriminate.
Defined.

Lemma Button_other_props_sample :
  (js "type" ∉ namedKeys)
  /\ attributes
       (Button joinClasses
          {| variant := None; size := None; isLoading := None;
             className := None; children := TextNode (js "Save");
             disabled := None;
             passed := {[ js "type" := AttrString (js "submit") ]} |})
     !! js "type"
     = Some (AttrString (js "submit")).
Proof.
  assert (js "type" ∉ namedKeys) as H.
  { intros H. vm_compute in H. repeat (apply elem_of_cons in H as [H|H]; [discriminate|]).
    apply elem_of_nil in H. exact H. }
  split; [exact H|].
  rewrite (proj1 (Button_other_props joinClasses _) (js "type") H).
  vm_compute. reflexivity.
Defined.

End ButtonSamples.
